(** * The Jlink facade of nrf-jlink-js (src/jlink.ts)

    A shallow embedding of the class [Jlink]: its constructor, which picks
    one of the two backend strategies, and its fifteen forwarding methods.
    JavaScript completions (return / throw), promises (fulfilled / rejected),
    the process object and the heap of backend objects are explicit. *)

From Stdlib Require Import String.
From stdpp Require Import base option strings gmap.

Open Scope string_scope.
Open Scope list_scope.

(** ** JavaScript values used by the facade *)

(** [new Error(message)]. *)
Inductive Error := MkError (message : string).

(** How a synchronous call ends: [return v] or [throw e]. *)
Inductive Completion (T : Type) :=
| Normal (v : T)
| Throw (e : Error).
Arguments Normal {T} v.
Arguments Throw {T} e.

(** A promise, by the way it settles. The facade awaits every promise it is
    handed at once, so only the settlement is observed. *)
Inductive Promise (T : Type) :=
| Fulfilled (v : T)
| Rejected (e : Error).
Arguments Fulfilled {T} v.
Arguments Rejected {T} e.

(** The types imported from ./jlinkAbstract, whose declarations lie outside
    jlink.ts. The facade only passes such values along, so they are taken as
    parameters. *)
Class Imports := {
  JlinkDownload : Type;
  ProgressCallback : Type
}.

(** The global [process] object: [process.platform], [process.arch] and
    [process.env]. *)
Module process.
Record t := mk {
  platform : string;
  arch : string;
  env : gmap string string
}.
End process.

(** [process.env[key] = value] *)
Definition setenv (key value : string) (p : process.t) : process.t :=
  process.mk (process.platform p) (process.arch p) (<[key := value]> (process.env p)).

(** ** The operations of the backend interface

    One constructor per method of [JlinkAbstract] that the facade calls, with
    the arguments of the call; the index is the type of the value returned.
    Synchronous and [async] methods are kept apart. *)
Section Operations.
Context `{Imports}.

(** Modelled from the spec: the signatures of the synchronous methods of
    [JlinkAbstract] (missing: its declaration, in jlinkAbstract.ts). The
    arguments are those the facade method passes. The result type is the one
    the facade method declares ([string[]], [String]); where it declares
    none, it is the Result column of the operation table: nothing for the
    setters and the license switches, a string for the two getters. *)
Inductive SyncOp : Type -> Type :=
| ListLocalInstalled : SyncOp (list string)
| SetJlinkPath (path : string) : SyncOp unit
| GetJlinkPath : SyncOp string
| SetJlinkVersion (version : string) : SyncOp unit
| GetJlinkVersion : SyncOp string
| AcceptLicense : SyncOp unit
| DeclineLicense : SyncOp unit
| ShowLicense : SyncOp string.

(** Modelled from the spec: the signatures of the methods of [JlinkAbstract]
    that return a promise (missing: its declaration, in jlinkAbstract.ts).
    The index is the type of the fulfilment value: the one in the facade
    method's [Promise<...>] annotation, and nothing for [install] and
    [downloadAndInstall], which the table gives no result. *)
Inductive AsyncOp : Type -> Type :=
| ListRemote : AsyncOp (list JlinkDownload)
| Download (version : string) (progressUpdate : option ProgressCallback) : AsyncOp string
| DownloadFromSegger (version : string) (progressUpdate : option ProgressCallback) : AsyncOp string
| Install (installPath : option string) : AsyncOp unit
| DownloadAndInstall (version : string) (progressUpdate : ProgressCallback) : AsyncOp unit
| GetVersion : AsyncOp string
| Upload (filePath version : string) (progressUpdate : option ProgressCallback) : AsyncOp string.

(** A call of a backend method: a synchronous one, returning a [T], or one
    returning a [Promise<T>]. *)
Inductive Call : Type -> Type :=
| Sync {T} (op : SyncOp T) : Call T
| Async {T} (op : AsyncOp T) : Call (Promise T).

(** A backend class: its constructor [(os, arch)] and its methods. A method
    acts on the state of the object it is called on, which stands for all
    the backend keeps or reaches; [process.env] is written by the facade
    alone. *)
Class JlinkAbstract (B : Type) := {
  construct : string -> string -> B;
  invoke : forall {T}, Call T -> B -> Completion T * B
}.

End Operations.
#[global] Hint Mode JlinkAbstract - ! : typeclass_instances.

(** ** The state and error monad of method bodies *)

Definition M (S T : Type) : Type := S -> Completion T * S.

Definition ret {S T} (v : T) : M S T := fun s => (Normal v, s).

Definition throw {S T} (e : Error) : M S T := fun s => (Throw e, s).

Definition bind {S T U} (m : M S T) (k : T -> M S U) : M S U :=
  fun s =>
    match m s with
    | (Normal v, s') => k v s'
    | (Throw e, s') => (Throw e, s')
    end.

Declare Scope js_scope.
Delimit Scope js_scope with js.
Notation "x <- m ;; k" := (bind m (fun x => k))
  (at level 100, m at next level, right associativity) : js_scope.

(** [await p]: the fulfilment value, or the rejection reason thrown. *)
Definition await {S T} (p : Promise T) : M S T :=
  match p with
  | Fulfilled v => ret v
  | Rejected e => throw e
  end.

(** An [async] function: whatever its body does, the call itself returns a
    promise, fulfilled with the returned value or rejected with the thrown
    one. *)
Definition async {S T} (body : M S T) : M S (Promise T) :=
  fun s =>
    match body s with
    | (Normal v, s') => (Normal (Fulfilled v), s')
    | (Throw e, s') => (Normal (Rejected e), s')
    end.

(** [x || d] on an optional string argument: [undefined] and the empty
    string are falsy. *)
Definition js_or (x : option string) (d : string) : string :=
  match x with
  | Some s => if String.eqb s "" then d else s
  | None => d
  end.

(** ** Heap and journal *)

Definition loc := nat.

Inductive Strategy := Installer | Bundle.

Section Facade.
Context `{Imports}.
Context {BI BB : Type}.
Context {JlinkInstaller : JlinkAbstract BI} {JlinkBundle : JlinkAbstract BB}.

(** A backend object on the heap: an instance of [JlinkInstaller] or of
    [JlinkBundle]. *)
Inductive Object :=
| InstallerObject (b : BI)
| BundleObject (b : BB).

Definition strategy (o : Object) : Strategy :=
  match o with
  | InstallerObject _ => Installer
  | BundleObject _ => Bundle
  end.

(** Dynamic dispatch of a method call on a backend object. *)
Definition dispatch {T} (c : Call T) (o : Object) : Completion T * Object :=
  match o with
  | InstallerObject b => let (r, b') := invoke c b in (r, InstallerObject b')
  | BundleObject b => let (r, b') := invoke c b in (r, BundleObject b')
  end.

(** What a test double records: every [new] of a backend class and every
    method call made on a backend object. *)
Inductive Entry :=
| Constructed (k : Strategy) (os arch : string) (l : loc)
| Called (l : loc) {T} (c : Call T).

Record World := mkWorld {
  proc : process.t;
  objects : gmap loc Object;
  journal : list Entry
}.

(** The instance fields of [Jlink]. *)
Record Jlink := mkJlink {
  installType : string;
  os : string;
  arch : string;
  jlink : loc
}.

(** A method body runs on the receiver [this] and the world. *)
Record Frame := mkFrame {
  this : Jlink;
  world : World
}.

(** [new C(os, arch)] for a backend class [C]: the object is built by the
    constructor of the class and put at a fresh location. *)
Definition new (k : Strategy) (o : Object) (os arch : string) : M World loc :=
  fun w =>
    let l := fresh (dom (objects w)) in
    (Normal l,
     mkWorld (proc w) (<[l := o]> (objects w))
             (journal w ++ [Constructed k os arch l])).

Definition new_JlinkInstaller (os arch : string) : M World loc :=
  new Installer (InstallerObject (construct os arch)) os arch.

Definition new_JlinkBundle (os arch : string) : M World loc :=
  new Bundle (BundleObject (construct os arch)) os arch.

(** ** [Jlink.constructor] (jlink.ts, lines 16-35) *)

Definition constructor (installType os arch : option string) : M World Jlink :=
  fun w =>
    let this_installType := js_or installType "installer" in
    let this_os := js_or os (process.platform (proc w)) in
    let this_arch := js_or arch (process.arch (proc w)) in
    if String.eqb this_installType "installer" then
      (l <- new_JlinkInstaller this_os this_arch ;;
       ret (mkJlink this_installType this_os this_arch l))%js w
    else if String.eqb this_installType "bundle" then
      (l <- new_JlinkBundle this_os this_arch ;;
       ret (mkJlink this_installType this_os this_arch l))%js w
    else
      throw (MkError "Invalid install type") w.

(** ** The methods (jlink.ts, lines 43-181) *)

(** [this.jlink.m(args)]: the call is journalled and the object at
    [this.jlink] takes the state the method leaves. A dangling [this.jlink]
    cannot arise from [constructor]; the model gives it the TypeError of a
    call on [undefined]. *)
Definition delegate {T} (c : Call T) : M Frame T :=
  fun s =>
    let l := jlink (this s) in
    let w := world s in
    match objects w !! l with
    | Some o =>
        let (r, o') := dispatch c o in
        (r, mkFrame (this s)
              (mkWorld (proc w) (<[l := o']> (objects w))
                       (journal w ++ [Called l c])))
    | None => (Throw (MkError "TypeError"), s)
    end.

(** [process.env[key] = value] *)
Definition process_env_set (key value : string) : M Frame unit :=
  fun s =>
    let w := world s in
    (Normal tt,
     mkFrame (this s) (mkWorld (setenv key value (proc w)) (objects w) (journal w))).

Open Scope js_scope.

Definition listLocalInstalled : M Frame (list string) :=
  delegate (Sync ListLocalInstalled).

Definition listRemote : M Frame (Promise (list JlinkDownload)) :=
  async (p <- delegate (Async ListRemote) ;; v <- await p ;; ret v).

Definition download (version : string) (progressUpdate : option ProgressCallback)
  : M Frame (Promise string) :=
  async (p <- delegate (Async (Download version progressUpdate)) ;;
         v <- await p ;; ret v).

Definition downloadFromSegger (version : string) (progressUpdate : option ProgressCallback)
  : M Frame (Promise string) :=
  async (p <- delegate (Async (DownloadFromSegger version progressUpdate)) ;;
         v <- await p ;; ret v).

Definition install (installPath : option string) : M Frame (Promise unit) :=
  async (p <- delegate (Async (Install installPath)) ;;
         _ <- await p ;; ret tt).

Definition downloadAndInstall (version : string) (progressUpdate : ProgressCallback)
  : M Frame (Promise unit) :=
  async (p <- delegate (Async (DownloadAndInstall version progressUpdate)) ;;
         _ <- await p ;; ret tt).

Definition getVersion : M Frame (Promise string) :=
  async (p <- delegate (Async GetVersion) ;; v <- await p ;; ret v).

Definition upload (filePath version : string) (progressUpdate : option ProgressCallback)
  : M Frame (Promise string) :=
  async (p <- delegate (Async (Upload filePath version progressUpdate)) ;;
         v <- await p ;; ret v).

Definition setJlinkPath (path : string) : M Frame unit :=
  _ <- process_env_set "NRF_JLINK_PATH" path ;;
  _ <- delegate (Sync (SetJlinkPath path)) ;;
  ret tt.

Definition getJlinkPath : M Frame string :=
  delegate (Sync GetJlinkPath).

Definition setJlinkVersion (version : string) : M Frame unit :=
  _ <- delegate (Sync (SetJlinkVersion version)) ;; ret tt.

Definition getJlinkVersion : M Frame string :=
  delegate (Sync GetJlinkVersion).

Definition acceptLicense : M Frame unit :=
  _ <- delegate (Sync AcceptLicense) ;; ret tt.

Definition declineLicense : M Frame unit :=
  _ <- delegate (Sync DeclineLicense) ;; ret tt.

Definition showLicense : M Frame string :=
  delegate (Sync ShowLicense).

(** The exposed operations as one table: the facade method that has the name
    and takes the arguments of a given backend call. *)
Definition facade {T} (c : Call T) : M Frame T :=
  match c in Call T return M Frame T with
  | Sync op =>
      match op in SyncOp T return M Frame T with
      | ListLocalInstalled => listLocalInstalled
      | SetJlinkPath path => setJlinkPath path
      | GetJlinkPath => getJlinkPath
      | SetJlinkVersion version => setJlinkVersion version
      | GetJlinkVersion => getJlinkVersion
      | AcceptLicense => acceptLicense
      | DeclineLicense => declineLicense
      | ShowLicense => showLicense
      end
  | Async op =>
      match op in AsyncOp T return M Frame (Promise T) with
      | ListRemote => listRemote
      | Download version progressUpdate => download version progressUpdate
      | DownloadFromSegger version progressUpdate =>
          downloadFromSegger version progressUpdate
      | Install installPath => install installPath
      | DownloadAndInstall version progressUpdate =>
          downloadAndInstall version progressUpdate
      | GetVersion => getVersion
      | Upload filePath version progressUpdate =>
          upload filePath version progressUpdate
      end
  end.

Close Scope js_scope.

(** ** Facades in use *)

(** [this.jlink] refers to an object of the heap. *)
Definition live (s : Frame) : Prop :=
  is_Some (objects (world s) !! jlink (this s)).

(** The frames a program can be in with a facade it has constructed: right
    after [new Jlink(...)], and after any call of an operation on it. *)
Inductive reachable : Frame -> Prop :=
| reach_new installType os arch w this0 w' :
    constructor installType os arch w = (Normal this0, w') ->
    reachable (mkFrame this0 w')
| reach_call {T} (c : Call T) s :
    reachable s ->
    reachable (facade c s).2.

(** ** What the caller of an operation observes *)

(** The completion of a backend call as it comes out of the facade method:
    a synchronous method hands it on as it is; an [async] method hands on the
    promise, and turns an exception thrown before any promise was returned
    into a rejected promise. *)
Definition through {T} (c : Call T) : Completion T -> Completion T :=
  match c in Call T return Completion T -> Completion T with
  | Sync _ => fun r => r
  | Async _ => fun r =>
      match r with
      | Normal p => Normal p
      | Throw e => Normal (Rejected e)
      end
  end.

(** The process object as the backend call finds it: [setJlinkPath] has
    written the environment variable by then. *)
Definition before {T} (c : Call T) (p : process.t) : process.t :=
  match c with
  | Sync (SetJlinkPath path) => setenv "NRF_JLINK_PATH" path p
  | _ => p
  end.

(** The error a call fails with, if it fails: thrown, or the reason of the
    rejected promise of an [async] operation. *)
Definition failure {T} (c : Call T) : Completion T -> option Error :=
  match c in Call T return Completion T -> option Error with
  | Sync _ => fun r =>
      match r with
      | Normal _ => None
      | Throw e => Some e
      end
  | Async _ => fun r =>
      match r with
      | Normal (Fulfilled _) => None
      | Normal (Rejected e) => Some e
      | Throw e => Some e
      end
  end.

(** Failing with [e], as the caller of the facade sees it: an exception from
    a synchronous method, a rejected promise from an [async] one. *)
Definition raised {T} (c : Call T) (e : Error) : Completion T :=
  match c in Call T return Completion T with
  | Sync _ => Throw e
  | Async _ => Normal (Rejected e)
  end.

(** ** Clients of the facade *)

(** The [case] label of the constructor's switch that selects a backend
    class. *)
Definition install_type_of (k : Strategy) : string :=
  match k with
  | Installer => "installer"
  | Bundle => "bundle"
  end.

(** Whether a call is [setJlinkPath], the one method with a statement of its
    own before the forward. *)
Definition is_setJlinkPath {T} (c : Call T) : bool :=
  match c with
  | Sync (SetJlinkPath _) => true
  | _ => false
  end.

(** One call of an operation, of whatever result type. *)
Record Invocation := invocation {
  result_type : Type;
  call_of : Call result_type
}.

(** A client calling operations on the same facade one after the other,
    going on whatever each call returns or throws. *)
Fixpoint run_calls (cs : list Invocation) (s : Frame) : Frame :=
  match cs with
  | [] => s
  | i :: cs' => run_calls cs' (facade (call_of i) s).2
  end.

End Facade.
Arguments Object BI BB : clear implicits.
Arguments World {H} BI BB.
Arguments Frame {H} BI BB.
Arguments Invocation {H}.
Arguments invocation {H} {result_type} call_of.

(** ** The backend classes

    The bodies of the backend methods are in jlinkAbstract.ts,
    jlinkInstaller.ts and jlinkBundle.ts, outside jlink.ts. The properties
    of the facade above hold for any backend class; the ones that speak of
    what a backend records need the backend itself, modelled here. *)
Module Modelled.
Section Backend.
Context `{Imports}.

(** Modelled from the spec: the state of a backend object of class [k]
    (missing: the fields of JlinkAbstract). It holds the library path the
    backend was told ("the backend's recorded path"), the version it should
    target and its license-acceptance state. *)
Record Backend (k : Strategy) := mkBackend {
  jlinkPath : string;
  jlinkVersion : string;
  licenseAccepted : bool
}.
Arguments mkBackend {k}.
Arguments jlinkPath {k}.
Arguments jlinkVersion {k}.
Arguments licenseAccepted {k}.

(** What the spec leaves to each backend class: the state a new object starts
    in and every operation that reaches outside the object (listing,
    downloading, installing, uploading, the license text). *)
Class Rest (k : Strategy) := {
  initial : string -> string -> Backend k;
  other : forall {T}, Call T -> Backend k -> Completion T * Backend k
}.

(** Modelled from the spec: the methods of a backend (missing: the bodies in
    jlinkAbstract.ts and its two subclasses). [setJlinkPath] records the
    path and [getJlinkPath] gives the current one; [setJlinkVersion] records
    which version the backend should target and [getJlinkVersion] gives the
    version currently targeted; [acceptLicense] and [declineLicense] change
    the license-acceptance state. *)
Definition method {k} `{Rest k} {T} (c : Call T) (b : Backend k)
  : Completion T * Backend k :=
  match c in Call T return Completion T * Backend k with
  | Sync op =>
      match op in SyncOp T return Completion T * Backend k with
      | SetJlinkPath path =>
          (Normal tt, mkBackend path (jlinkVersion b) (licenseAccepted b))
      | GetJlinkPath => (Normal (jlinkPath b), b)
      | SetJlinkVersion version =>
          (Normal tt, mkBackend (jlinkPath b) version (licenseAccepted b))
      | GetJlinkVersion => (Normal (jlinkVersion b), b)
      | AcceptLicense =>
          (Normal tt, mkBackend (jlinkPath b) (jlinkVersion b) true)
      | DeclineLicense =>
          (Normal tt, mkBackend (jlinkPath b) (jlinkVersion b) false)
      | ListLocalInstalled => other (Sync ListLocalInstalled) b
      | ShowLicense => other (Sync ShowLicense) b
      end
  | Async op => other (Async op) b
  end.

#[global] Instance class {k} `{Rest k} : JlinkAbstract (Backend k) := {
  construct := initial;
  invoke := fun T => method
}.

(** Heap objects, worlds and frames over the two modelled classes. *)
Definition Object : Type := Object (Backend Installer) (Backend Bundle).
Definition World : Type := World (Backend Installer) (Backend Bundle).
Definition Frame : Type := Frame (Backend Installer) (Backend Bundle).

(** The path and the version recorded in a backend object of either class. *)
Definition recordedPath (o : Object) : string :=
  match o with
  | InstallerObject b => jlinkPath b
  | BundleObject b => jlinkPath b
  end.

Definition recordedVersion (o : Object) : string :=
  match o with
  | InstallerObject b => jlinkVersion b
  | BundleObject b => jlinkVersion b
  end.

End Backend.
Arguments mkBackend {k}.
Arguments jlinkPath {k}.
Arguments jlinkVersion {k}.
Arguments licenseAccepted {k}.
End Modelled.

(** ** A concrete run: test doubles for the two backend classes *)
Module Demo.
Import Modelled.

Definition imports : Imports := {| JlinkDownload := string; ProgressCallback := nat |}.
#[local] Existing Instance imports.

(** The answer of a double to the operations that reach outside: every one
    succeeds with a fixed value ([ok = true]) or fails ([ok = false]). *)
Definition answer (ok : bool) {T} (c : Call T) : Completion T :=
  match c in Call T return Completion T with
  | Sync op =>
      match op in SyncOp T return Completion T with
      | ListLocalInstalled =>
          if ok then Normal ["/opt/SEGGER/JLink"] else Throw (MkError "EACCES")
      | ShowLicense =>
          if ok then Normal "license" else Throw (MkError "ENOENT")
      | GetJlinkPath | GetJlinkVersion => Normal ""
      | _ => Normal tt
      end
  | Async op =>
      if ok then
        match op in AsyncOp T return Completion (Promise T) with
        | ListRemote => Normal (Fulfilled ["8.10"; "7.94"])
        | Install _ | DownloadAndInstall _ _ => Normal (Fulfilled tt)
        | GetVersion => Normal (Fulfilled "8.10")
        | _ => Normal (Fulfilled "/tmp/JLink")
        end
      else Normal (Rejected (MkError "network down"))
  end.

Definition installer : Rest Installer := {|
  initial := fun _ _ => mkBackend "" "" false;
  other := fun T c b => (answer true c, b)
|}.

Definition bundle : Rest Bundle := {|
  initial := fun _ _ => mkBackend "" "" false;
  other := fun T c b => (answer false c, b)
|}.
#[local] Existing Instance installer.
#[local] Existing Instance bundle.

Definition w0 : World := mkWorld (process.mk "linux" "x64" ∅) ∅ [].

(** The frame a method runs in after [new Jlink(installType)] in [w0]. *)
Definition frame (installType : option string) : option Frame :=
  match constructor installType None None w0 with
  | (Normal this, w) => Some (mkFrame this w)
  | (Throw _, _) => None
  end.

Definition installer_frame : Frame :=
  mkFrame (mkJlink "installer" "linux" "x64" 0)
    (mkWorld (process.mk "linux" "x64" ∅)
       {[ 0 := InstallerObject (mkBackend "" "" false) ]}
       [Constructed Installer "linux" "x64" 0]).

Definition bundle_frame : Frame :=
  mkFrame (mkJlink "bundle" "linux" "x64" 0)
    (mkWorld (process.mk "linux" "x64" ∅)
       {[ 0 := BundleObject (mkBackend "" "" false) ]}
       [Constructed Bundle "linux" "x64" 0]).

End Demo.

(** A backend class whose every method throws, and a facade over an object
    of that class. *)
Module Refusing.

Definition class : JlinkAbstract (H := Demo.imports) unit := {|
  construct := fun _ _ => tt;
  invoke := fun T c b => (Throw (MkError "EPERM"), b)
|}.

Definition frame : Frame (H := Demo.imports) unit unit :=
  mkFrame (mkJlink "installer" "linux" "x64" 0)
    (mkWorld (process.mk "linux" "x64" ∅)
       {[ 0 := InstallerObject tt ]}
       [Constructed Installer "linux" "x64" 0]).

End Refusing.

Section FacadeProperties.
Context `{Imports}.
Context {BI BB : Type}.
Context {JlinkInstaller : JlinkAbstract BI} {JlinkBundle : JlinkAbstract BB}.

Ltac unfold_methods :=
  unfold listLocalInstalled, getJlinkPath, getJlinkVersion, showLicense,
    setJlinkPath, setJlinkVersion, acceptLicense, declineLicense,
    listRemote, download, downloadFromSegger, install,
    downloadAndInstall, getVersion, upload, async, bind, process_env_set;
  cbn [fst snd this world proc objects journal].

Lemma delegate_run {T} (c : Call T) (s : Frame BI BB) (o : Object BI BB) :
  objects (world s) !! jlink (this s) = Some o ->
  delegate c s =
    ((dispatch c o).1,
     mkFrame (this s)
       (mkWorld (proc (world s))
          (<[jlink (this s) := (dispatch c o).2]> (objects (world s)))
          (journal (world s) ++ [Called (jlink (this s)) c]))).
Proof.
  intros Hjlink. unfold delegate. rewrite Hjlink.
  destruct (dispatch c o) as [r o']. reflexivity.
Qed.

Lemma facade_run {T} (c : Call T) (s : Frame BI BB) (o : Object BI BB) :
  objects (world s) !! jlink (this s) = Some o ->
  facade c s =
    (through c (dispatch c o).1,
     mkFrame (this s)
       (mkWorld (before c (proc (world s)))
          (<[jlink (this s) := (dispatch c o).2]> (objects (world s)))
          (journal (world s) ++ [Called (jlink (this s)) c]))).
Proof.
  intros Hjlink.
  destruct c as [T op | T op]; destruct op; cbn [facade through before].
  all: unfold_methods.
  all: rewrite (delegate_run _ _ o) by exact Hjlink.
  all: cbn [fst snd this world proc objects journal].
  all: destruct (dispatch _ o) as [[v | e] o']; cbn [fst snd].
  all: try reflexivity.
  all: try (destruct v as [[] | e]; reflexivity).
  all: try (destruct v; reflexivity).
Qed.

Lemma facade_dangling {T} (c : Call T) (s : Frame BI BB) :
  objects (world s) !! jlink (this s) = None ->
  (facade c s).2 =
    mkFrame (this s)
      (mkWorld (before c (proc (world s))) (objects (world s)) (journal (world s))).
Proof.
  intros Hnone.
  destruct c as [T op | T op]; destruct op; cbn [facade before].
  all: unfold_methods; unfold delegate.
  all: cbn [fst snd this world proc objects journal].
  all: rewrite Hnone; cbn [fst snd].
  all: destruct s as [t [p m j]]; reflexivity.
Qed.

Lemma js_or_truthy (s d : string) : s <> "" -> js_or (Some s) d = s.
Proof.
  intros Hs. unfold js_or.
  destruct (String.eqb s "") eqn:E; [apply String.eqb_eq in E; contradiction | reflexivity].
Qed.

Lemma fresh_location_free {A} (m : gmap loc A) : m !! fresh (dom m) = None.
Proof. apply not_elem_of_dom, is_fresh. Qed.

Lemma constructor_live installType0 os0 arch0 (w w' : World BI BB) this0 :
  constructor installType0 os0 arch0 w = (Normal this0, w') ->
  live (mkFrame this0 w').
Proof.
  unfold constructor, live.
  destruct (String.eqb _ "installer"); [| destruct (String.eqb _ "bundle")].
  all: cbn; intros [= <- <-]; cbn.
  all: rewrite lookup_insert_eq; eauto.
Qed.

Lemma facade_live {T} (c : Call T) (s : Frame BI BB) :
  live s -> live (facade c s).2.
Proof.
  intros [o Hjlink]. unfold live.
  rewrite (facade_run c s o Hjlink). cbn.
  rewrite lookup_insert_eq. eauto.
Qed.

(** Every facade a program has constructed, whatever it has called on it
    since, refers to a live backend object. *)
Lemma reachable_live (s : Frame BI BB) : reachable s -> live s.
Proof.
  induction 1 as [installType0 os0 arch0 w this0 w' Hnew | T c s _ IH].
  - exact (constructor_live _ _ _ _ _ _ Hnew).
  - exact (facade_live c s IH).
Qed.

(** C1 (amended): for every non-empty install type string other than
    "installer" and "bundle", the constructor throws the error
    "Invalid install type" and leaves the world as it was: no backend object
    is created and no backend constructor is called. *)
Theorem invalid_install_type_is_rejected
  (s : string) (os0 arch0 : option string) (w : World BI BB)
  (Hnonempty : s <> "") (Hinstaller : s <> "installer") (Hbundle : s <> "bundle") :
  constructor (Some s) os0 arch0 w = (Throw (MkError "Invalid install type"), w).
Proof.
  unfold constructor. rewrite (js_or_truthy s) by exact Hnonempty.
  apply String.eqb_neq in Hinstaller, Hbundle.
  rewrite Hinstaller, Hbundle. reflexivity.
Qed.

(** C2: whatever the operation and its arguments, a call of the facade
    method on a facade whose [jlink] is a live backend object makes exactly
    one call on that object, of the operation of the same name with the same
    arguments; the object takes the state that call leaves, and the value the
    backend returns is the value the facade returns. *)
Theorem facade_forwards_once {T} (c : Call T) (s : Frame BI BB) (o : Object BI BB)
  (Hjlink : objects (world s) !! jlink (this s) = Some o) :
  journal (world (facade c s).2) = journal (world s) ++ [Called (jlink (this s)) c]
  /\ objects (world (facade c s).2) =
       <[jlink (this s) := (dispatch c o).2]> (objects (world s))
  /\ (forall v, (dispatch c o).1 = Normal v -> (facade c s).1 = Normal v).
Proof.
  rewrite (facade_run c s o Hjlink). cbn [fst snd world journal objects].
  split; [reflexivity | split; [reflexivity |]].
  intros v ->. destruct c; reflexivity.
Qed.

(** C3: if the backend's [listRemote] returns a promise rejected with [e],
    the promise of the facade's [listRemote] is rejected with [e]; and for
    every operation, a backend call that fails with [e] makes the facade call
    fail with the same [e] (thrown by a synchronous method, the rejection
    reason of an async one) after that single backend call. *)
Theorem backend_failure_propagates (s : Frame BI BB) (o : Object BI BB)
  (Hjlink : objects (world s) !! jlink (this s) = Some o) :
  (forall e o', dispatch (Async ListRemote) o = (Normal (Rejected e), o') ->
     (listRemote s).1 = Normal (Rejected e))
  /\ (forall T (c : Call T) e,
        failure c (dispatch c o).1 = Some e ->
        (facade c s).1 = raised c e
        /\ journal (world (facade c s).2) =
             journal (world s) ++ [Called (jlink (this s)) c]).
Proof.
  split.
  - intros e o' Hrej.
    change (listRemote s) with (facade (Async ListRemote) s).
    rewrite (facade_run _ s o Hjlink), Hrej. reflexivity.
  - intros T c e Hfail.
    rewrite (facade_run c s o Hjlink). cbn [fst snd world journal].
    split; [| reflexivity].
    destruct c as [T op | T op]; cbn [failure through raised] in *.
    + destruct (dispatch (Sync op) o).1; congruence.
    + destruct (dispatch (Async op) o).1 as [[v | e'] | e']; congruence.
Qed.

(** C7: with no install type, the facade gets install type "installer" and a
    new [JlinkInstaller] object, built from the resolved OS and
    architecture, is what [jlink] refers to; with "bundle" it is a new
    [JlinkBundle] object, built from the same two values. *)
Theorem constructor_selects_strategy (os0 arch0 : option string) (w : World BI BB) :
  let os' := js_or os0 (process.platform (proc w)) in
  let arch' := js_or arch0 (process.arch (proc w)) in
  (exists this w',
     constructor None os0 arch0 w = (Normal this, w')
     /\ installType this = "installer" /\ os this = os' /\ arch this = arch'
     /\ objects w !! jlink this = None
     /\ objects w' !! jlink this = Some (InstallerObject (construct os' arch'))
     /\ journal w' = journal w ++ [Constructed Installer os' arch' (jlink this)])
  /\ (exists this w',
        constructor (Some "bundle") os0 arch0 w = (Normal this, w')
        /\ installType this = "bundle" /\ os this = os' /\ arch this = arch'
        /\ objects w !! jlink this = None
        /\ objects w' !! jlink this = Some (BundleObject (construct os' arch'))
        /\ journal w' = journal w ++ [Constructed Bundle os' arch' (jlink this)]).
Proof.
  intros os' arch'. split.
  - eexists _, _. split; [reflexivity |]. cbn.
    repeat split; auto using fresh_location_free.
    apply lookup_insert_eq.
  - eexists _, _. split; [reflexivity |]. cbn.
    repeat split; auto using fresh_location_free.
    apply lookup_insert_eq.
Qed.

(** C8: when the constructor returns a facade, the facade's [os] is
    [process.platform] if no OS was given and its [arch] is [process.arch] if
    no architecture was given, both as they are when the constructor runs;
    so with neither given, both fields are the ambient values. *)
Theorem constructor_ambient_platform
  (installType0 os0 arch0 : option string) (w w' : World BI BB) (this0 : Jlink)
  (Hnew : constructor installType0 os0 arch0 w = (Normal this0, w')) :
  (os0 = None -> os this0 = process.platform (proc w))
  /\ (arch0 = None -> arch this0 = process.arch (proc w)).
Proof.
  unfold constructor in Hnew.
  destruct (String.eqb _ "installer"); [| destruct (String.eqb _ "bundle")].
  all: cbn in Hnew; inversion Hnew; subst; cbn.
  all: split; intros ->; reflexivity.
Qed.

(** C9: the constructor, when it returns a facade, has created one backend
    object, at a location that held none, and changes nothing when it
    throws; and no operation changes a field of the facade ([installType],
    [os], [arch], [jlink]) or creates an object, whatever the facade and the
    world. *)
Theorem facade_fields_are_stable :
  (forall installType0 os0 arch0 (w : World BI BB),
     match constructor installType0 os0 arch0 w with
     | (Normal this0, w') =>
         objects w !! jlink this0 = None
         /\ exists o,
             objects w' = <[jlink this0 := o]> (objects w)
             /\ journal w' =
                  journal w
                  ++ [Constructed (strategy o) (os this0) (arch this0) (jlink this0)]
     | (Throw _, w') => w' = w
     end)
  /\ (forall T (c : Call T) (s : Frame BI BB),
        this (facade c s).2 = this s
        /\ dom (objects (world (facade c s).2)) = dom (objects (world s))).
Proof.
  split.
  - intros installType0 os0 arch0 w. unfold constructor.
    destruct (String.eqb _ "installer"); [| destruct (String.eqb _ "bundle")].
    all: cbn; try reflexivity.
    all: split; [apply fresh_location_free | eexists; split; reflexivity].
  - intros T c s.
    destruct (objects (world s) !! jlink (this s)) as [o |] eqn:Hjlink.
    + rewrite (facade_run c s o Hjlink). cbn [snd this world objects].
      split; [reflexivity |].
      apply dom_insert_lookup_L. rewrite Hjlink. eauto.
    + rewrite (facade_dangling c s Hjlink). split; reflexivity.
Qed.

(** C10: the empty string as install type is taken as no install type: the
    constructor does what it does without one, returning a facade of install
    type "installer" whose [jlink] is a new [JlinkInstaller] object, and does
    not throw. *)
Theorem empty_install_type_defaults (os0 arch0 : option string) (w : World BI BB) :
  constructor (Some "") os0 arch0 w = constructor None os0 arch0 w
  /\ exists this0 w',
      constructor (Some "") os0 arch0 w = (Normal this0, w')
      /\ installType this0 = "installer"
      /\ objects w' !! jlink this0 =
           Some (InstallerObject
                   (construct (js_or os0 (process.platform (proc w)))
                              (js_or arch0 (process.arch (proc w)))))
      /\ journal w' =
           journal w ++ [Constructed Installer (os this0) (arch this0) (jlink this0)].
Proof.
  split; [reflexivity |].
  eexists _, _. split; [reflexivity |]. cbn.
  repeat split. apply lookup_insert_eq.
Qed.

End FacadeProperties.

Section ModelledProperties.
Import Modelled.
Context `{Imports} {installer : Rest Installer} {bundle : Rest Bundle}.

Lemma setJlinkPath_run (X : string) (s : Frame) (o : Object) :
  objects (world s) !! jlink (this s) = Some o ->
  exists o',
    recordedPath o' = X
    /\ setJlinkPath X s =
         (Normal tt,
          mkFrame (this s)
            (mkWorld (setenv "NRF_JLINK_PATH" X (proc (world s)))
               (<[jlink (this s) := o']> (objects (world s)))
               (journal (world s) ++ [Called (jlink (this s)) (Sync (SetJlinkPath X))]))).
Proof.
  intros Hjlink.
  change (setJlinkPath X s) with (facade (Sync (SetJlinkPath X)) s).
  rewrite (facade_run _ s o Hjlink).
  destruct o as [b | b]; eexists; (split; [| reflexivity]); reflexivity.
Qed.

Lemma setJlinkVersion_run (v : string) (s : Frame) (o : Object) :
  objects (world s) !! jlink (this s) = Some o ->
  exists o',
    recordedVersion o' = v
    /\ setJlinkVersion v s =
         (Normal tt,
          mkFrame (this s)
            (mkWorld (proc (world s))
               (<[jlink (this s) := o']> (objects (world s)))
               (journal (world s) ++ [Called (jlink (this s)) (Sync (SetJlinkVersion v))]))).
Proof.
  intros Hjlink.
  change (setJlinkVersion v s) with (facade (Sync (SetJlinkVersion v)) s).
  rewrite (facade_run _ s o Hjlink).
  destruct o as [b | b]; eexists; (split; [| reflexivity]); reflexivity.
Qed.

(** C4: after [setJlinkPath(X)] on a facade whose [jlink] is a live backend
    object (as it is on every constructed facade), the path recorded in that
    object is [X] and [process.env["NRF_JLINK_PATH"]] is [X]. *)
Theorem setJlinkPath_records_and_exports (X : string) (s : Frame)
  (Hlive : live s) :
  let s' := (setJlinkPath X s).2 in
  recordedPath <$> objects (world s') !! jlink (this s') = Some X
  /\ process.env (proc (world s')) !! "NRF_JLINK_PATH" = Some X.
Proof.
  destruct Hlive as [o Hjlink].
  destruct (setJlinkPath_run X s o Hjlink) as (o' & Hpath & ->).
  cbn. split.
  - rewrite lookup_insert_eq. cbn. congruence.
  - apply lookup_insert_eq.
Qed.

(** C5: [getJlinkPath] called after [setJlinkPath(X)] on the same facade
    (one whose [jlink] is a live backend object) returns [X]. *)
Theorem setJlinkPath_getJlinkPath (X : string) (s : Frame)
  (Hlive : live s) :
  (getJlinkPath (setJlinkPath X s).2).1 = Normal X.
Proof.
  destruct Hlive as [o Hjlink].
  destruct (setJlinkPath_run X s o Hjlink) as (o' & Hpath & ->).
  cbn [snd]. unfold getJlinkPath.
  erewrite delegate_run by (cbn; apply lookup_insert_eq).
  destruct o' as [b | b]; cbn in *; congruence.
Qed.

(** C6: [getJlinkVersion] called after [setJlinkVersion(v)] on the same
    facade (one whose [jlink] is a live backend object) returns [v]; so it
    does for "1.2.3". *)
Theorem setJlinkVersion_getJlinkVersion (v : string) (s : Frame)
  (Hlive : live s) :
  (getJlinkVersion (setJlinkVersion v s).2).1 = Normal v.
Proof.
  destruct Hlive as [o Hjlink].
  destruct (setJlinkVersion_run v s o Hjlink) as (o' & Hversion & ->).
  cbn [snd]. unfold getJlinkVersion.
  erewrite delegate_run by (cbn; apply lookup_insert_eq).
  destruct o' as [b | b]; cbn in *; congruence.
Qed.

End ModelledProperties.

(** ** Further properties of the constructor and of the methods *)

Section FacadeInUse.
Context `{Imports}.
Context {BI BB : Type}.
Context {JlinkInstaller : JlinkAbstract BI} {JlinkBundle : JlinkAbstract BB}.

Lemma dispatch_strategy {T} (c : Call T) (o : Object BI BB) :
  strategy (dispatch c o).2 = strategy o.
Proof.
  destruct o as [b | b]; unfold dispatch; destruct (invoke c b); reflexivity.
Qed.

(** The shape of what a successful constructor returns. *)
Lemma constructor_returns installType0 os0 arch0 (w w' : World BI BB) this0 :
  constructor installType0 os0 arch0 w = (Normal this0, w') ->
  this0 = mkJlink (js_or installType0 "installer")
            (js_or os0 (process.platform (proc w)))
            (js_or arch0 (process.arch (proc w)))
            (fresh (dom (objects w)))
  /\ exists o,
       w' = mkWorld (proc w) (<[jlink this0 := o]> (objects w))
              (journal w ++ [Constructed (strategy o) (os this0) (arch this0) (jlink this0)])
       /\ install_type_of (strategy o) = js_or installType0 "installer".
Proof.
  unfold constructor.
  destruct (String.eqb _ "installer") eqn:Ei;
    [| destruct (String.eqb _ "bundle") eqn:Eb].
  all: cbn; intros [= <- <-]; cbn.
  - apply String.eqb_eq in Ei. split; [reflexivity |].
    eexists (InstallerObject _). split; [reflexivity |]. cbn. congruence.
  - apply String.eqb_eq in Eb. split; [reflexivity |].
    eexists (BundleObject _). split; [reflexivity |]. cbn. congruence.
Qed.

Lemma js_or_cases (x : option string) (d : string) :
  (forall s, x = Some s -> s <> "" -> js_or x d = s)
  /\ (x = None \/ x = Some "" -> js_or x d = d).
Proof.
  split.
  - intros s -> Hs. apply js_or_truthy, Hs.
  - intros [-> | ->]; reflexivity.
Qed.

(** The process and the objects other than [this.jlink] after a call,
    whether [this.jlink] is live or not. *)
Lemma facade_frame {T} (c : Call T) (s : Frame BI BB) :
  this (facade c s).2 = this s
  /\ proc (world (facade c s).2) = before c (proc (world s))
  /\ forall l, l <> jlink (this s) ->
       objects (world (facade c s).2) !! l = objects (world s) !! l.
Proof.
  destruct (objects (world s) !! jlink (this s)) as [o |] eqn:Hjlink.
  - rewrite (facade_run c s o Hjlink). cbn.
    repeat split. intros l Hl. apply lookup_insert_ne. congruence.
  - rewrite (facade_dangling c s Hjlink). cbn. repeat split.
Qed.

(** X1: on every facade a program has constructed, whatever it has called on
    it since, [installType] is the label of the class of the object [jlink]
    refers to: "installer" over a [JlinkInstaller], "bundle" over a
    [JlinkBundle]. *)
Theorem install_type_names_the_backend (s : Frame BI BB)
  (Hreach : reachable s) :
  exists o,
    objects (world s) !! jlink (this s) = Some o
    /\ installType (this s) = install_type_of (strategy o).
Proof.
  induction Hreach as [installType0 os0 arch0 w this0 w' Hnew | T c s _ IH].
  - destruct (constructor_returns _ _ _ _ _ _ Hnew) as (Hthis & o & -> & Hname).
    exists o. cbn. split; [apply lookup_insert_eq |].
    rewrite Hname, Hthis. reflexivity.
  - destruct IH as (o & Hjlink & Hname).
    rewrite (facade_run c s o Hjlink). cbn.
    eexists. split; [apply lookup_insert_eq |].
    rewrite dispatch_strategy. exact Hname.
Qed.

(** X2: each of the three constructor arguments is taken as given when it is
    a non-empty string, and replaced by its default when it is absent or the
    empty string: "installer" for the install type, [process.platform] for
    the OS, [process.arch] for the architecture. *)
Theorem constructor_resolves_arguments
  (installType0 os0 arch0 : option string) (w w' : World BI BB) (this0 : Jlink)
  (Hnew : constructor installType0 os0 arch0 w = (Normal this0, w')) :
  ((forall s, installType0 = Some s -> s <> "" -> installType this0 = s)
   /\ (installType0 = None \/ installType0 = Some "" -> installType this0 = "installer"))
  /\ ((forall s, os0 = Some s -> s <> "" -> os this0 = s)
      /\ (os0 = None \/ os0 = Some "" -> os this0 = process.platform (proc w)))
  /\ ((forall s, arch0 = Some s -> s <> "" -> arch this0 = s)
      /\ (arch0 = None \/ arch0 = Some "" -> arch this0 = process.arch (proc w))).
Proof.
  destruct (constructor_returns _ _ _ _ _ _ Hnew) as (-> & _). cbn.
  split; [| split]; apply js_or_cases.
Qed.

(** X3: the constructor throws exactly when the install type is a non-empty
    string other than "installer" and "bundle", and the error it throws is
    never another than "Invalid install type". *)
Theorem constructor_throws_only_invalid_install_type
  (installType0 os0 arch0 : option string) (w : World BI BB) :
  ((exists e, (constructor installType0 os0 arch0 w).1 = Throw e)
   <-> exists s, installType0 = Some s
                 /\ s <> "" /\ s <> "installer" /\ s <> "bundle")
  /\ (forall e, (constructor installType0 os0 arch0 w).1 = Throw e ->
        e = MkError "Invalid install type").
Proof.
  split; [split |].
  - intros [e He]. unfold constructor in He.
    destruct (String.eqb _ "installer") eqn:Ei;
      [discriminate He | destruct (String.eqb _ "bundle") eqn:Eb; [discriminate He |]].
    apply String.eqb_neq in Ei, Eb.
    destruct installType0 as [s |]; [| contradiction Ei; reflexivity].
    exists s. cbn in Ei, Eb.
    destruct (String.eqb s "") eqn:Es; [contradiction Ei; reflexivity |].
    apply String.eqb_neq in Es. auto.
  - intros (s & -> & Hs & Hi & Hb). eexists.
    unfold constructor. rewrite (js_or_truthy s) by exact Hs.
    apply String.eqb_neq in Hi, Hb. rewrite Hi, Hb. reflexivity.
  - intros e. unfold constructor.
    destruct (String.eqb _ "installer"); [discriminate |].
    destruct (String.eqb _ "bundle"); [discriminate |].
    cbn. congruence.
Qed.

(** X4: [setJlinkPath(X)] has set [process.env["NRF_JLINK_PATH"]] to [X]
    when it ends, however it ends: the variable is written before the
    backend is called, so when the backend's [setJlinkPath] throws [e], the
    facade throws [e] and the variable holds [X] all the same. *)
Theorem setJlinkPath_exports_first (X : string) (s : Frame BI BB) :
  process.env (proc (world (setJlinkPath X s).2)) !! "NRF_JLINK_PATH" = Some X
  /\ (forall o e,
        objects (world s) !! jlink (this s) = Some o ->
        (dispatch (Sync (SetJlinkPath X)) o).1 = Throw e ->
        (setJlinkPath X s).1 = Throw e
        /\ process.env (proc (world (setJlinkPath X s).2)) !! "NRF_JLINK_PATH" = Some X).
Proof.
  change (setJlinkPath X s) with (facade (Sync (SetJlinkPath X)) s).
  assert (Henv : process.env (proc (world (facade (Sync (SetJlinkPath X)) s).2))
                   !! "NRF_JLINK_PATH" = Some X).
  { destruct (facade_frame (Sync (SetJlinkPath X)) s) as (_ & -> & _).
    cbn. apply lookup_insert_eq. }
  split; [exact Henv |].
  intros o e Hjlink Hthrow. split; [| exact Henv].
  rewrite (facade_run _ s o Hjlink). cbn. exact Hthrow.
Qed.

(** X5: the constructor leaves the process object as it is; so does every
    operation but [setJlinkPath]; and [setJlinkPath] changes nothing of it
    but the environment variable NRF_JLINK_PATH. *)
Theorem process_is_written_by_setJlinkPath_only :
  (forall installType0 os0 arch0 (w : World BI BB),
     proc (constructor installType0 os0 arch0 w).2 = proc w)
  /\ (forall T (c : Call T) (s : Frame BI BB),
        is_setJlinkPath c = false ->
        proc (world (facade c s).2) = proc (world s))
  /\ (forall T (c : Call T) (s : Frame BI BB),
        process.platform (proc (world (facade c s).2)) = process.platform (proc (world s))
        /\ process.arch (proc (world (facade c s).2)) = process.arch (proc (world s))
        /\ forall key, key <> "NRF_JLINK_PATH" ->
             process.env (proc (world (facade c s).2)) !! key
             = process.env (proc (world s)) !! key).
Proof.
  split; [| split].
  - intros installType0 os0 arch0 w. unfold constructor.
    destruct (String.eqb _ "installer"); [| destruct (String.eqb _ "bundle")];
      reflexivity.
  - intros T c s Hc. destruct (facade_frame c s) as (_ & -> & _).
    destruct c as [T op | T op]; destruct op; try reflexivity; discriminate Hc.
  - intros T c s. destruct (facade_frame c s) as (_ & -> & _).
    destruct c as [T op | T op]; destruct op; cbn; repeat split.
    intros key Hkey. apply lookup_insert_ne. congruence.
Qed.

(** X6: a call of an async operation never throws: whatever the backend
    does, and whatever [this.jlink] is, the caller gets a promise. *)
Theorem async_operations_return_a_promise {T} (op : AsyncOp T) (s : Frame BI BB) :
  exists p, (facade (Async op) s).1 = Normal p.
Proof.
  destruct op; cbn [facade].
  all: unfold listRemote, download, downloadFromSegger, install,
         downloadAndInstall, getVersion, upload, async.
  all: destruct (bind _ _ s) as [[v | e] s'].
  all: eexists; reflexivity.
Qed.

(** X7: a client that calls operations one after the other on a facade whose
    [jlink] is live makes the backend calls of the same names and arguments,
    as many and in the same order, all on that one object; the facade's
    fields are as before and [jlink] is still live. *)
Theorem run_calls_forwards_in_order (cs : list Invocation) (s : Frame BI BB)
  (Hlive : live s) :
  journal (world (run_calls cs s))
    = journal (world s) ++ map (fun i => Called (jlink (this s)) (call_of i)) cs
  /\ this (run_calls cs s) = this s
  /\ live (run_calls cs s).
Proof.
  revert s Hlive.
  induction cs as [| i cs IH]; intros s Hlive; cbn [run_calls map].
  - rewrite app_nil_r. auto.
  - destruct Hlive as [o Hjlink].
    assert (Hnext : live (facade (call_of i) s).2) by (apply facade_live; eexists; eauto).
    destruct (IH _ Hnext) as (Hj & Ht & Hl).
    split; [| split; [| exact Hl]].
    + rewrite Hj. rewrite (facade_run (call_of i) s o Hjlink). cbn.
      rewrite <- app_assoc. reflexivity.
    + rewrite Ht. rewrite (facade_run (call_of i) s o Hjlink). reflexivity.
Qed.

(** X8: two facades constructed one after the other do not share a backend
    object: their [jlink]s differ, constructing the second leaves the
    object of the first as it is, and no operation on either changes the
    object of the other. *)
Theorem facades_do_not_share_a_backend
  (installType1 os1 arch1 installType2 os2 arch2 : option string)
  (w w1 w2 : World BI BB) (this1 this2 : Jlink)
  (Hnew1 : constructor installType1 os1 arch1 w = (Normal this1, w1))
  (Hnew2 : constructor installType2 os2 arch2 w1 = (Normal this2, w2)) :
  jlink this1 <> jlink this2
  /\ objects w2 !! jlink this1 = objects w1 !! jlink this1
  /\ (forall T (c : Call T),
        objects (world (facade c (mkFrame this2 w2)).2) !! jlink this1
        = objects w2 !! jlink this1)
  /\ (forall T (c : Call T),
        objects (world (facade c (mkFrame this1 w2)).2) !! jlink this2
        = objects w2 !! jlink this2).
Proof.
  pose proof (constructor_live _ _ _ _ _ _ Hnew1) as [o1 Ho1]. cbn in Ho1.
  destruct (constructor_returns _ _ _ _ _ _ Hnew2) as (Hthis2 & o2 & Hw2 & _).
  assert (Hfree : objects w1 !! jlink this2 = None).
  { rewrite Hthis2. cbn. apply fresh_location_free. }
  assert (Hne : jlink this1 <> jlink this2) by congruence.
  split; [exact Hne |]. split; [| split].
  - rewrite Hw2. cbn. apply lookup_insert_ne. congruence.
  - intros T c. destruct (facade_frame c (mkFrame this2 w2)) as (_ & _ & Helse).
    apply Helse. cbn. exact Hne.
  - intros T c. destruct (facade_frame c (mkFrame this1 w2)) as (_ & _ & Helse).
    apply Helse. cbn. congruence.
Qed.

(** X9: what an operation does depends on the facade through [jlink] alone:
    two receivers with the same [jlink] get the same result and leave the
    same world, whatever their [installType], [os] and [arch] fields hold. *)
Theorem operations_read_jlink_only {T} (c : Call T) (this1 this2 : Jlink)
  (w : World BI BB)
  (Hsame : jlink this1 = jlink this2) :
  (facade c (mkFrame this1 w)).1 = (facade c (mkFrame this2 w)).1
  /\ world (facade c (mkFrame this1 w)).2 = world (facade c (mkFrame this2 w)).2.
Proof.
  destruct (objects w !! jlink this1) as [o |] eqn:Hjlink.
  - rewrite (facade_run c (mkFrame this1 w) o) by exact Hjlink.
    rewrite (facade_run c (mkFrame this2 w) o) by (cbn; congruence).
    cbn. rewrite Hsame. auto.
  - destruct c as [T op | T op]; destruct op; cbn [facade].
    all: unfold listLocalInstalled, getJlinkPath, getJlinkVersion, showLicense,
           setJlinkPath, setJlinkVersion, acceptLicense, declineLicense,
           listRemote, download, downloadFromSegger, install,
           downloadAndInstall, getVersion, upload, async, bind,
           process_env_set, delegate.
    all: cbn [fst snd this world proc objects journal].
    all: rewrite <- Hsame, Hjlink; cbn; auto.
Qed.

End FacadeInUse.

(** ** Concrete runs, with the doubles of [Demo] as the two backend classes *)

#[local] Existing Instance Demo.imports.
#[local] Existing Instance Demo.installer.
#[local] Existing Instance Demo.bundle.

(** The constructor on three install types, started in [Demo.w0]. *)
Example demo_frames :
  Demo.frame None = Some Demo.installer_frame
  /\ Demo.frame (Some "bundle") = Some Demo.bundle_frame
  /\ Demo.frame (Some "zip") = None.
Proof. vm_compute. auto. Qed.

(** C1, as stated, fails at the empty string: it is neither "installer" nor
    "bundle", yet the constructor returns a facade of install type
    "installer" and has called the [JlinkInstaller] constructor. *)
Lemma empty_install_type_is_accepted :
  "" <> "installer" /\ "" <> "bundle"
  /\ (constructor (Some "") None None Demo.w0).1
       = Normal (mkJlink "installer" "linux" "x64" 0)
  /\ (constructor (Some "") None None Demo.w0).1
       <> Throw (MkError "Invalid install type")
  /\ journal (constructor (Some "") None None Demo.w0).2
       = [Constructed Installer "linux" "x64" 0].
Proof.
  split; [discriminate |]. split; [discriminate |].
  split; [vm_compute; reflexivity |].
  split; [vm_compute; discriminate | vm_compute; reflexivity].
Qed.

Lemma invalid_install_type_is_rejected_witness :
  "zip" <> "" /\ "zip" <> "installer" /\ "zip" <> "bundle"
  /\ constructor (Some "zip") (Some "darwin") None Demo.w0
       = (Throw (MkError "Invalid install type"), Demo.w0).
Proof.
  repeat (split; [discriminate |]).
  apply (invalid_install_type_is_rejected "zip"); discriminate.
Defined.

Lemma facade_forwards_once_witness :
  let c := Async (Download "8.10" (Some 7)) in
  objects (world Demo.installer_frame) !! jlink (this Demo.installer_frame)
    = Some (InstallerObject (Modelled.mkBackend "" "" false))
  /\ journal (world (facade c Demo.installer_frame).2)
       = [Constructed Installer "linux" "x64" 0; Called 0 c]
  /\ (facade c Demo.installer_frame).1 = Normal (Fulfilled "/tmp/JLink").
Proof.
  intros c.
  assert (Hjlink : objects (world Demo.installer_frame) !! jlink (this Demo.installer_frame)
                   = Some (InstallerObject (Modelled.mkBackend "" "" false)))
    by (vm_compute; reflexivity).
  destruct (facade_forwards_once c Demo.installer_frame _ Hjlink) as (Hcalls & _ & Hvalue).
  split; [exact Hjlink |]. split; [exact Hcalls |].
  apply Hvalue. reflexivity.
Defined.

Lemma backend_failure_propagates_witness :
  objects (world Demo.bundle_frame) !! jlink (this Demo.bundle_frame)
    = Some (BundleObject (Modelled.mkBackend "" "" false))
  /\ (listRemote Demo.bundle_frame).1 = Normal (Rejected (MkError "network down"))
  /\ (facade (Sync ShowLicense) Demo.bundle_frame).1 = Throw (MkError "ENOENT").
Proof.
  assert (Hjlink : objects (world Demo.bundle_frame) !! jlink (this Demo.bundle_frame)
                   = Some (BundleObject (Modelled.mkBackend "" "" false)))
    by (vm_compute; reflexivity).
  destruct (backend_failure_propagates Demo.bundle_frame _ Hjlink) as (Hlist & Hall).
  split; [exact Hjlink |]. split.
  - eapply Hlist. reflexivity.
  - apply (Hall _ (Sync ShowLicense) (MkError "ENOENT")). reflexivity.
Defined.

Lemma constructor_ambient_platform_witness :
  constructor (Some "bundle") None None Demo.w0
    = (Normal (this Demo.bundle_frame), world Demo.bundle_frame)
  /\ os (this Demo.bundle_frame) = "linux"
  /\ arch (this Demo.bundle_frame) = "x64".
Proof.
  assert (Hnew : constructor (Some "bundle") None None Demo.w0
                 = (Normal (this Demo.bundle_frame), world Demo.bundle_frame))
    by (vm_compute; reflexivity).
  split; [exact Hnew |].
  destruct (constructor_ambient_platform (Some "bundle") None None Demo.w0 _ _ Hnew)
    as [Hos Harch].
  split; [exact (Hos eq_refl) | exact (Harch eq_refl)].
Defined.

Lemma demo_installer_live : live Demo.installer_frame.
Proof.
  apply reachable_live.
  apply (reach_new None None None Demo.w0). vm_compute. reflexivity.
Defined.

Lemma demo_bundle_live : live Demo.bundle_frame.
Proof.
  apply reachable_live.
  apply (reach_new (Some "bundle") None None Demo.w0). vm_compute. reflexivity.
Defined.

Lemma setJlinkPath_records_and_exports_witness :
  let s' := (setJlinkPath "/opt/SEGGER/JLink_V810" Demo.installer_frame).2 in
  live Demo.installer_frame
  /\ Modelled.recordedPath <$> objects (world s') !! jlink (this s')
       = Some "/opt/SEGGER/JLink_V810"
  /\ process.env (proc (world s')) !! "NRF_JLINK_PATH" = Some "/opt/SEGGER/JLink_V810".
Proof.
  intros s'. split; [exact demo_installer_live |].
  exact (setJlinkPath_records_and_exports "/opt/SEGGER/JLink_V810"
           Demo.installer_frame demo_installer_live).
Defined.

Lemma setJlinkPath_getJlinkPath_witness :
  live Demo.bundle_frame
  /\ (getJlinkPath (setJlinkPath "X" Demo.bundle_frame).2).1 = Normal "X".
Proof.
  split; [exact demo_bundle_live |].
  exact (setJlinkPath_getJlinkPath "X" Demo.bundle_frame demo_bundle_live).
Defined.

Lemma setJlinkVersion_getJlinkVersion_witness :
  live Demo.installer_frame
  /\ (getJlinkVersion (setJlinkVersion "1.2.3" Demo.installer_frame).2).1 = Normal "1.2.3".
Proof.
  split; [exact demo_installer_live |].
  exact (setJlinkVersion_getJlinkVersion "1.2.3" Demo.installer_frame demo_installer_live).
Defined.

(** ** Concrete runs for the further properties *)

Lemma install_type_names_the_backend_witness :
  let s := (facade (Sync AcceptLicense) Demo.bundle_frame).2 in
  reachable s
  /\ exists o,
       objects (world s) !! jlink (this s) = Some o
       /\ installType (this s) = install_type_of (strategy o).
Proof.
  intros s.
  assert (Hreach : reachable s).
  { apply (reach_call (Sync AcceptLicense)).
    apply (reach_new (Some "bundle") None None Demo.w0). vm_compute. reflexivity. }
  split; [exact Hreach |].
  exact (install_type_names_the_backend s Hreach).
Defined.

Lemma constructor_resolves_arguments_witness :
  constructor (Some "bundle") (Some "darwin") (Some "") Demo.w0
    = (Normal (mkJlink "bundle" "darwin" "x64" 0),
       (constructor (Some "bundle") (Some "darwin") (Some "") Demo.w0).2)
  /\ installType (mkJlink "bundle" "darwin" "x64" 0) = "bundle"
  /\ os (mkJlink "bundle" "darwin" "x64" 0) = "darwin"
  /\ arch (mkJlink "bundle" "darwin" "x64" 0) = process.arch (proc Demo.w0).
Proof.
  assert (Hnew : constructor (Some "bundle") (Some "darwin") (Some "") Demo.w0
                 = (Normal (mkJlink "bundle" "darwin" "x64" 0),
                    (constructor (Some "bundle") (Some "darwin") (Some "") Demo.w0).2))
    by (vm_compute; reflexivity).
  split; [exact Hnew |].
  destruct (constructor_resolves_arguments _ _ _ _ _ _ Hnew)
    as ((Htype & _) & (Hos & _) & (_ & Harch)).
  split; [apply (Htype "bundle"); [reflexivity | discriminate] |].
  split; [apply (Hos "darwin"); [reflexivity | discriminate] |].
  apply Harch. right. reflexivity.
Defined.

Lemma constructor_throws_only_invalid_install_type_witness :
  (exists e, (constructor (Some "zip") None None Demo.w0).1 = Throw e)
  /\ ~ (exists e, (constructor (Some "") None None Demo.w0).1 = Throw e).
Proof.
  destruct (constructor_throws_only_invalid_install_type (Some "zip") None None Demo.w0)
    as [[_ Hzip] _].
  destruct (constructor_throws_only_invalid_install_type (Some "") None None Demo.w0)
    as [[Hempty _] _].
  split.
  - apply Hzip. exists "zip". repeat split; discriminate.
  - intros Hthrows. destruct (Hempty Hthrows) as (s & [= <-] & Hs & _).
    apply Hs. reflexivity.
Defined.

#[local] Existing Instance Refusing.class.

Lemma setJlinkPath_exports_first_witness :
  (setJlinkPath "/opt/SEGGER/JLink" Refusing.frame).1 = Throw (MkError "EPERM")
  /\ process.env (proc (world (setJlinkPath "/opt/SEGGER/JLink" Refusing.frame).2))
       !! "NRF_JLINK_PATH" = Some "/opt/SEGGER/JLink".
Proof.
  destruct (setJlinkPath_exports_first "/opt/SEGGER/JLink" Refusing.frame) as [_ Hfails].
  apply (Hfails (InstallerObject tt) (MkError "EPERM")).
  - vm_compute. reflexivity.
  - reflexivity.
Defined.

Lemma process_is_written_by_setJlinkPath_only_witness :
  proc (world (facade (Sync (SetJlinkVersion "8.10")) Demo.installer_frame).2)
    = proc (world Demo.installer_frame)
  /\ process.env (proc (world (facade (Sync (SetJlinkPath "/opt")) Demo.installer_frame).2))
       !! "PATH"
     = process.env (proc (world Demo.installer_frame)) !! "PATH".
Proof.
  destruct (process_is_written_by_setJlinkPath_only
              (BI := Modelled.Backend Installer) (BB := Modelled.Backend Bundle))
    as (_ & Hothers & Hset).
  split.
  - apply Hothers. reflexivity.
  - apply (Hset _ (Sync (SetJlinkPath "/opt")) Demo.installer_frame). discriminate.
Defined.

Lemma run_calls_forwards_in_order_witness :
  let cs := [invocation (Sync AcceptLicense); invocation (Async ListRemote)] in
  live Demo.installer_frame
  /\ journal (world (run_calls cs Demo.installer_frame))
     = [Constructed Installer "linux" "x64" 0;
        Called 0 (Sync AcceptLicense); Called 0 (Async ListRemote)].
Proof.
  intros cs. split; [exact demo_installer_live |].
  exact (proj1 (run_calls_forwards_in_order cs Demo.installer_frame demo_installer_live)).
Defined.

Lemma facades_do_not_share_a_backend_witness :
  let r := constructor (Some "bundle") None None (world Demo.installer_frame) in
  constructor None None None Demo.w0
    = (Normal (this Demo.installer_frame), world Demo.installer_frame)
  /\ r = (Normal (mkJlink "bundle" "linux" "x64" 1), r.2)
  /\ forall T (c : Call T),
       objects (world (facade c (mkFrame (mkJlink "bundle" "linux" "x64" 1) r.2)).2)
         !! jlink (this Demo.installer_frame)
       = objects r.2 !! jlink (this Demo.installer_frame).
Proof.
  intros r.
  assert (Hnew1 : constructor None None None Demo.w0
                  = (Normal (this Demo.installer_frame), world Demo.installer_frame))
    by (vm_compute; reflexivity).
  assert (Hnew2 : r = (Normal (mkJlink "bundle" "linux" "x64" 1), r.2))
    by (vm_compute; reflexivity).
  split; [exact Hnew1 |]. split; [exact Hnew2 |].
  destruct (facades_do_not_share_a_backend _ _ _ _ _ _ _ _ _ _ _ Hnew1 Hnew2)
    as (_ & _ & Hsecond & _).
  exact Hsecond.
Defined.

Lemma operations_read_jlink_only_witness :
  let other := mkJlink "bundle" "win32" "arm64" 0 in
  jlink (this Demo.installer_frame) = jlink other
  /\ (facade (Async ListRemote) (mkFrame other (world Demo.installer_frame))).1
     = Normal (Fulfilled ["8.10"; "7.94"]).
Proof.
  intros other.
  assert (Hsame : jlink (this Demo.installer_frame) = jlink other) by reflexivity.
  split; [exact Hsame |].
  destruct (operations_read_jlink_only (Async ListRemote) _ _
              (world Demo.installer_frame) Hsame) as [Hresult _].
  rewrite <- Hresult. vm_compute. reflexivity.
Defined.
